(** * Dactyl: the OpenAPI autogeneration builder ([OasAutogenBuilder])

    A shallow embedding of [OasAutogenBuilder] (constructor, the three
    header setters and [build]) and the properties of the document that
    [build] assembles.

    Modelling conventions.
    - JS objects used as string-keyed maps ([paths], a path item, the
      [responses] object, the [components] sub-maps) and the two [Map]s of
      the controller metadata are finite maps ([gmap]) of their own
      properties.  A document is this tree of maps: it records which
      entries are printed, not the order in which [JSON.stringify] lists
      the keys.
    - [paths[requestPath]] is read through the prototype chain, so the
      properties of [Object.prototype] are part of the state; see
      [ObjectPrototype] below.
    - [undefined] is [None].
    - [build] returns nothing; it prints the document and may leave
      properties on the objects of [Object.prototype].  Both effects are
      threaded through [build] as a [World].
    - The private fields of the class are a record that the methods
      transform.
    - Status codes are integers.  The key of [responses] is the code
      converted to a string, which for the safe integers ([safeInteger])
      is the decimal numeral that [pretty] gives. *)

From stdpp Require Import base decidable countable option list strings
  pretty gmap fin_maps.

Local Open Scope string_scope.
Local Open Scope Z_scope.

(** ** Enumerations of [types.ts] *)

(** Modelled from the spec: the enumeration [HttpMethod] is declared in
    [types.ts]; its members are the request methods the specification
    lists. *)
Inductive HttpMethod := GET | POST | PUT | DELETE | PATCH.

(** Modelled from the spec: the enumeration [ArgsType] is declared in
    [types.ts]; its members are the argument kinds the specification
    lists. *)
Inductive ArgsType := PARAM | QUERY | BODY | CONTEXT | REQUEST | RESPONSE | HEADER.

#[global] Instance HttpMethod_eq_dec : EqDecision HttpMethod.
Proof. solve_decision. Defined.

#[global] Instance ArgsType_eq_dec : EqDecision ArgsType.
Proof. solve_decision. Defined.

Definition HttpMethod_to_nat (m : HttpMethod) : nat :=
  match m with GET => 0 | POST => 1 | PUT => 2 | DELETE => 3 | PATCH => 4 end%nat.

Definition HttpMethod_of_nat (n : nat) : HttpMethod :=
  match n with 0 => GET | 1 => POST | 2 => PUT | 3 => DELETE | _ => PATCH end%nat.

#[global] Instance HttpMethod_countable : Countable HttpMethod.
Proof.
  refine (inj_countable' HttpMethod_to_nat HttpMethod_of_nat _).
  intros m. destruct m; reflexivity.
Defined.

(** ** Input: controller metadata

    The interfaces are declared in [types.ts]; the records below have the
    fields that [build] reads, with the types it reads them at. *)

Module RouteDefinition.
Record t := mk {
  methodName : string;
  path : string;
  requestMethod : HttpMethod
}.
End RouteDefinition.

Module DocModel.
Record t := mk { description : string }.
End DocModel.

Module DocDefinition.
Record t := mk {
  docFor : string;
  model : DocModel.t
}.
End DocDefinition.

Module RouteArgument.
Record t := mk {
  argFor : string;
  type : ArgsType;
  key : string
}.
End RouteArgument.

Module ControllerMetadata.
Record t := mk {
  prefix : option string;
  routes : list RouteDefinition.t;
  docs : list DocDefinition.t;
  defaultResponseCodes : gmap string Z;
  args : list RouteArgument.t;
  argTypes : gmap string (list string)
}.
End ControllerMetadata.

(** ** Output: the OpenAPI document *)

(** The value of a parameter's [in] field: [build] stores there either a
    string literal of its own or the descriptor's [ArgsType] member. *)
Inductive InLocation :=
  | InLiteral (s : string)
  | InArgsType (t : ArgsType).

#[global] Instance InLocation_eq_dec : EqDecision InLocation.
Proof. solve_decision. Defined.

(** An element of [filteredArgs] after the first [map]: a route argument
    whose [type] may have been overwritten by a string literal. *)
Module FilteredArgument.
Record t := mk {
  argFor : string;
  type : InLocation;
  key : string
}.
End FilteredArgument.

Module OasSchema.
Record t := mk { type : option string }.
End OasSchema.

Module OasParameter.
Record t := mk {
  name : string;
  in_ : InLocation;
  schema : OasSchema.t
}.
End OasParameter.

Module OasResponse.
Record t := mk { description : string }.
End OasResponse.

Module OasOperation.
Record t := mk {
  description : string;
  responses : gmap string OasResponse.t;
  parameters : list OasParameter.t
}.
End OasOperation.

(** [paths]: full path, then request method, then operation. *)
Abbreviation OasPathItem := (gmap HttpMethod OasOperation.t).
Abbreviation OasPathsRoot := (gmap string (gmap HttpMethod OasOperation.t)).

Module OasInfo.
Record t := mk {
  title : string;
  version : string;
  description : string
}.
End OasInfo.

(** The nine extension maps.  [build] only ever writes the empty object
    there, so what an entry holds is left abstract. *)
Module OasComponents.
Record t := mk {
  schemas : gmap string unit;
  responses : gmap string unit;
  parameters : gmap string unit;
  examples : gmap string unit;
  requestBodies : gmap string unit;
  headers : gmap string unit;
  securitySchemes : gmap string unit;
  links : gmap string unit;
  callbacks : gmap string unit
}.
End OasComponents.

Module OpenApiSpecRoot.
Record t := mk {
  openapi : string;
  info : OasInfo.t;
  paths : OasPathsRoot;
  components : OasComponents.t
}.
End OpenApiSpecRoot.

(** ** Static members of the class *)

Definition OAS_VERSION : string := "3.0.0".
Definition APP_VERSION : string := "1.0.0".
Definition DEFAULT_TITLE : string :=
  "OpenAPI Spec " +:+ OAS_VERSION +:+ " compliant documentation".
Definition DEFAULT_DESC : string := "Autogenerated OAS documentation by Dactyl".

(** [a ?? b] *)
Definition nullish {A} (a : option A) (b : A) : A :=
  match a with Some x => x | None => b end.

(** ** The body of the loop over the routes of one controller *)

Section Route.
Variable meta : ControllerMetadata.t.
Variable routeDef : RouteDefinition.t.

(** [docs.find(docDef => docDef.docFor === routeDef.methodName)] *)
Definition docDef : option DocDefinition.t :=
  List.find
    (λ d, bool_decide (DocDefinition.docFor d = RouteDefinition.methodName routeDef))
    (ControllerMetadata.docs meta).

(** The effective status code.  JS numbers are modelled by the integers;
    see [safeInteger] for the range on which [operation] renders them as
    the code does. *)
Definition code : Z :=
  nullish
    (ControllerMetadata.defaultResponseCodes meta !! RouteDefinition.methodName routeDef)
    (if decide (RouteDefinition.requestMethod routeDef = POST) then 201 else 200).

(** The [filter] stage of [filteredArgs]. *)
Definition retainedArgs : list RouteArgument.t :=
  filter
    (λ arg,
       RouteArgument.argFor arg = RouteDefinition.methodName routeDef ∧
       RouteArgument.type arg ≠ BODY ∧ RouteArgument.type arg ≠ CONTEXT ∧
       RouteArgument.type arg ≠ REQUEST ∧ RouteArgument.type arg ≠ RESPONSE)
    (ControllerMetadata.args meta).

(** The [map] stage of [filteredArgs]: [{...arg, type: "path"}] for a
    [PARAM], the argument itself otherwise. *)
Definition relabel (arg : RouteArgument.t) : FilteredArgument.t :=
  if decide (RouteArgument.type arg = PARAM)
  then FilteredArgument.mk (RouteArgument.argFor arg) (InLiteral "path")
                           (RouteArgument.key arg)
  else FilteredArgument.mk (RouteArgument.argFor arg)
                           (InArgsType (RouteArgument.type arg))
                           (RouteArgument.key arg).

Definition filteredArgs : list FilteredArgument.t := relabel <$> retainedArgs.

Definition filteredArgTypes : list string :=
  nullish (ControllerMetadata.argTypes meta !! RouteDefinition.methodName routeDef) [].

(** The operation object assigned to [paths[requestPath][requestMethod]]. *)
Definition operation : OasOperation.t :=
  OasOperation.mk
    (nullish ((DocModel.description ∘ DocDefinition.model) <$> docDef)
             (RouteDefinition.methodName routeDef))
    {[ pretty code := OasResponse.mk "" ]}
    (imap
       (λ index arg,
          OasParameter.mk (FilteredArgument.key arg) (FilteredArgument.type arg)
                          (OasSchema.mk (filteredArgTypes !! index)))
       filteredArgs).
End Route.

Definition requestPath (prefix : string) (routeDef : RouteDefinition.t) : string :=
  prefix +:+ RouteDefinition.path routeDef.

(** ** What an object literal inherits

    [paths] is an object literal, so [paths[requestPath]] finds an own
    property of [paths] or else a property of [Object.prototype].  The
    properties of [Object.prototype] are functions, hence truthy, and
    assigning [paths[requestPath][requestMethod]] for such a name stores
    the operation on that function, where it stays after [build] returns.

    An [ObjectPrototype] maps each inherited name to the properties that
    have been stored on the inherited object, by request method.

    The runtime is Deno ([deps.ts]), which deletes the [__proto__] accessor
    from [Object.prototype]: [__proto__] is a key like any other.  The
    request methods are taken not to name a read-only property of a
    function ([name], [length], [prototype]). *)
Abbreviation ObjectPrototype := (gmap string (gmap HttpMethod OasOperation.t)).

(** The property names of [Object.prototype] (ECMAScript, with Annex B and
    without [__proto__]). *)
Definition ObjectPrototypeNames : list string :=
  [ "constructor"; "hasOwnProperty"; "isPrototypeOf"; "propertyIsEnumerable";
    "toLocaleString"; "toString"; "valueOf";
    "__defineGetter__"; "__defineSetter__"; "__lookupGetter__"; "__lookupSetter__" ].

(** [Object.prototype] before anything was stored on its objects. *)
Definition initialObjectPrototype : ObjectPrototype :=
  gset_to_gmap ∅ (list_to_set ObjectPrototypeNames).

(** The two objects the route loop reads and writes: the local object
    [paths] and [Object.prototype]. *)
Record Heap := mkHeap {
  paths_obj : OasPathsRoot;
  Object_prototype : ObjectPrototype
}.

(** Where the read [paths[requestPath]] finds a value, if anywhere. *)
Inductive Holder := OwnProperty | InheritedProperty.

Definition holder (h : Heap) (requestPath : string) : option Holder :=
  match paths_obj h !! requestPath with
  | Some _ => Some OwnProperty
  | None =>
      match Object_prototype h !! requestPath with
      | Some _ => Some InheritedProperty
      | None => None
      end
  end.

(** One iteration of the loop over [routes]:
    [if (!paths[requestPath]) paths[requestPath] = {}] creates the path
    item when the read finds nothing, then
    [paths[requestPath][requestMethod] = {...}] stores the operation on
    the object that the read finds. *)
Definition routeStep (meta : ControllerMetadata.t) (prefix : string)
    (h : Heap) (routeDef : RouteDefinition.t) : Heap :=
  let assign := λ item : OasPathItem,
    <[RouteDefinition.requestMethod routeDef := operation meta routeDef]> item in
  let h' :=
    match holder h (requestPath prefix routeDef) with
    | None => mkHeap (<[requestPath prefix routeDef := ∅]> (paths_obj h))
                     (Object_prototype h)
    | Some _ => h
    end in
  match holder h' (requestPath prefix routeDef) with
  | Some InheritedProperty =>
      mkHeap (paths_obj h')
             (alter assign (requestPath prefix routeDef) (Object_prototype h'))
  | _ =>
      mkHeap (alter assign (requestPath prefix routeDef) (paths_obj h'))
             (Object_prototype h')
  end.

(** ** The loop over the controllers *)

(** What [OAS_ROOT.paths] refers to: the empty object literal it was
    initialised with, or (after [OAS_ROOT.paths = paths]) the local object
    [paths], which later iterations keep mutating. *)
Inductive PathsRef := OwnEmptyObject | LocalPaths.

Record LoopState := mkLoopState {
  heap : Heap;
  OAS_ROOT_paths : PathsRef
}.

(** What [build] can change outside the instance: the console, as the
    list of printed documents, and [Object.prototype]. *)
Record World := mkWorld {
  console : list OpenApiSpecRoot.t;
  prototype : ObjectPrototype
}.

Section Controllers.
(** The controller classes of the application ([Newable<any>]) and the
    metadata lookup of [metadata.ts]. *)
Variable Newable : Type.
Variable getControllerOwnMeta : Newable → option ControllerMetadata.t.

(** The guard [if (!meta || !meta.prefix) continue]: the prefix of a
    controller that is not skipped. *)
Definition truthyPrefix (controller : Newable) : option (ControllerMetadata.t * string) :=
  match getControllerOwnMeta controller with
  | None => None
  | Some meta =>
      match ControllerMetadata.prefix meta with
      | None => None
      | Some prefix => if decide (prefix = "") then None else Some (meta, prefix)
      end
  end.

Definition controllerStep (st : LoopState) (controller : Newable) : LoopState :=
  match truthyPrefix controller with
  | None => st
  | Some (meta, prefix) =>
      mkLoopState
        (foldl (routeStep meta prefix) (heap st) (ControllerMetadata.routes meta))
        LocalPaths
  end.

(** ** The builder *)

Record OasAutogenBuilder := mkBuilder {
  appConfig_controllers : list Newable;
  title : string;
  desc : string;
  applicationVersion : string
}.

(** [new OasAutogenBuilder(app)], with [controllers] the controllers of
    [app.getAppConfig()]. *)
Definition new (controllers : list Newable) : OasAutogenBuilder :=
  mkBuilder controllers DEFAULT_TITLE DEFAULT_DESC APP_VERSION.

Definition addTitle (title' : string) (this : OasAutogenBuilder) : OasAutogenBuilder :=
  mkBuilder (appConfig_controllers this) title' (desc this) (applicationVersion this).

Definition addDesc (desc' : string) (this : OasAutogenBuilder) : OasAutogenBuilder :=
  mkBuilder (appConfig_controllers this) (title this) desc' (applicationVersion this).

Definition addApplicationVersion (version' : string) (this : OasAutogenBuilder)
    : OasAutogenBuilder :=
  mkBuilder (appConfig_controllers this) (title this) (desc this) version'.

(** The loops of [build], started with [Object.prototype] as [proto]. *)
Definition finalState (proto : ObjectPrototype) (this : OasAutogenBuilder) : LoopState :=
  foldl controllerStep (mkLoopState (mkHeap ∅ proto) OwnEmptyObject)
        (appConfig_controllers this).

(** [OAS_ROOT] as it stands when it is printed. *)
Definition OAS_ROOT (proto : ObjectPrototype) (this : OasAutogenBuilder)
    : OpenApiSpecRoot.t :=
  let st := finalState proto this in
  OpenApiSpecRoot.mk
    OAS_VERSION
    (OasInfo.mk (title this) (applicationVersion this) (desc this))
    (match OAS_ROOT_paths st with
     | OwnEmptyObject => ∅
     | LocalPaths => paths_obj (heap st)
     end)
    (OasComponents.mk ∅ ∅ ∅ ∅ ∅ ∅ ∅ ∅ ∅).

(** [build(path)]: the instance is left as it was, one document is
    printed, and [Object.prototype] is left as the loops leave it.
    [path] is not used. *)
Definition build (path : string) (this : OasAutogenBuilder) (w : World)
    : OasAutogenBuilder * World :=
  (this,
   mkWorld (console w ++ [OAS_ROOT (prototype w) this])%list
           (Object_prototype (heap (finalState (prototype w) this)))).
End Controllers.

Arguments truthyPrefix {Newable} getControllerOwnMeta controller.
Arguments controllerStep {Newable} getControllerOwnMeta st controller.
Arguments OasAutogenBuilder Newable : clear implicits.
Arguments mkBuilder {Newable} appConfig_controllers title desc applicationVersion.
Arguments appConfig_controllers {Newable} this : rename.
Arguments title {Newable} this : rename.
Arguments desc {Newable} this : rename.
Arguments applicationVersion {Newable} this : rename.
Arguments new {Newable} controllers.
Arguments addTitle {Newable} title' this.
Arguments addDesc {Newable} desc' this.
Arguments addApplicationVersion {Newable} version' this.
Arguments finalState {Newable} getControllerOwnMeta proto this.
Arguments OAS_ROOT {Newable} getControllerOwnMeta proto this.
Arguments build {Newable} getControllerOwnMeta path this w.

(** ** Vocabulary of the properties *)

(** The own entry for a path and a method of a table ([paths] as it is
    printed, or the objects of [Object.prototype]). *)
Definition operationAt (paths : OasPathsRoot) (requestPath : string)
    (method : HttpMethod) : option OasOperation.t :=
  paths !! requestPath ≫= (λ item : OasPathItem, item !! method).

(** The iterations of the inner loop body, in the order in which the two
    nested loops perform them: each with the metadata and the prefix of
    its controller. *)
Definition processedRoutes {Newable : Type}
    (getControllerOwnMeta : Newable → option ControllerMetadata.t)
    (controllers : list Newable)
    : list (ControllerMetadata.t * string * RouteDefinition.t) :=
  controller ← controllers;
  match truthyPrefix getControllerOwnMeta controller with
  | None => []
  | Some (meta, prefix) => (λ routeDef, (meta, prefix, routeDef)) <$> ControllerMetadata.routes meta
  end.

Definition processedPath (it : ControllerMetadata.t * string * RouteDefinition.t) : string :=
  requestPath it.1.2 it.2.

Definition processedMethod (it : ControllerMetadata.t * string * RouteDefinition.t)
    : HttpMethod :=
  RouteDefinition.requestMethod it.2.

Definition processedOperation (it : ControllerMetadata.t * string * RouteDefinition.t)
    : OasOperation.t :=
  operation it.1.1 it.2.

(** The inner loop body applied to one such iteration. *)
Definition processedStep (h : Heap)
    (it : ControllerMetadata.t * string * RouteDefinition.t) : Heap :=
  routeStep it.1.1 it.1.2 h it.2.

(** The integers that a JS number holds exactly
    ([Number.MAX_SAFE_INTEGER] and its opposite): on these the conversion
    of a number to a property key gives the decimal numeral. *)
Definition MAX_SAFE_INTEGER : Z := 9007199254740991.

Definition safeInteger (n : Z) : Prop := - MAX_SAFE_INTEGER ≤ n ≤ MAX_SAFE_INTEGER.

(** The invariant of the route loop: a name that [paths] inherits is not
    an own property of [paths]. *)
Definition inheritedNotOwn (h : Heap) : Prop :=
  ∀ p, p ∈ dom (Object_prototype h) → paths_obj h !! p = None.

(** The argument kinds that are not published as parameters. *)
Definition excludedTypes : list ArgsType := [BODY; CONTEXT; REQUEST; RESPONSE].

(** A call of one of the three chaining setters. *)
Inductive SetterCall :=
  | AddTitle (title : string)
  | AddDesc (desc : string)
  | AddApplicationVersion (version : string).

Definition callSetter {Newable : Type} (this : OasAutogenBuilder Newable)
    (c : SetterCall) : OasAutogenBuilder Newable :=
  match c with
  | AddTitle s => addTitle s this
  | AddDesc s => addDesc s this
  | AddApplicationVersion s => addApplicationVersion s this
  end.

(** The value most recently configured by a sequence of setter calls. *)
Definition configuredTitle (calls : list SetterCall) : option string :=
  last (omap (λ c, match c with AddTitle s => Some s | _ => None end) calls).

Definition configuredDesc (calls : list SetterCall) : option string :=
  last (omap (λ c, match c with AddDesc s => Some s | _ => None end) calls).

Definition configuredVersion (calls : list SetterCall) : option string :=
  last (omap (λ c, match c with AddApplicationVersion s => Some s | _ => None end) calls).

(** ** Sample applications *)

(** A controller class stands for the metadata registered for it, if any. *)
Definition sampleMeta (controller : option ControllerMetadata.t)
    : option ControllerMetadata.t := controller.

Definition usersController : ControllerMetadata.t :=
  ControllerMetadata.mk
    (Some "/users")
    [ RouteDefinition.mk "getUser" "/:id" GET;
      RouteDefinition.mk "createUser" "/" POST;
      RouteDefinition.mk "replaceUser" "/:id" PUT ]
    [ DocDefinition.mk "getUser" (DocModel.mk "Fetch one user") ]
    {[ "replaceUser" := 204 ]}
    [ RouteArgument.mk "getUser" PARAM "id";
      RouteArgument.mk "getUser" CONTEXT "ctx";
      RouteArgument.mk "createUser" BODY "body";
      RouteArgument.mk "getUser" QUERY "verbose";
      RouteArgument.mk "getUser" HEADER "x-trace";
      RouteArgument.mk "replaceUser" PARAM "id";
      RouteArgument.mk "replaceUser" REQUEST "req";
      RouteArgument.mk "replaceUser" RESPONSE "res" ]
    {[ "getUser" := ["number"; "boolean"] ]}.

Definition pingController (description : string) : ControllerMetadata.t :=
  ControllerMetadata.mk
    (Some "/ping")
    [ RouteDefinition.mk "ping" "" GET ]
    [ DocDefinition.mk "ping" (DocModel.mk description) ]
    ∅ [] ∅.

Definition noPrefixController : ControllerMetadata.t :=
  ControllerMetadata.mk None [ RouteDefinition.mk "hidden" "/hidden" GET ] [] ∅ [] ∅.

Definition emptyPrefixController : ControllerMetadata.t :=
  ControllerMetadata.mk (Some "") [ RouteDefinition.mk "hidden" "/hidden" GET ] [] ∅ [] ∅.

(** The operation of the last of a sequence of iterations that writes
    [paths[p][m]], if any of them does. *)
Definition lastWrite (l : list (ControllerMetadata.t * string * RouteDefinition.t))
    (p : string) (m : HttpMethod) : option OasOperation.t :=
  processedOperation
    <$> last (filter (λ it, processedPath it = p ∧ processedMethod it = m) l).

(** [usersController] with more metadata registered, none of it for the
    route [getUser]. *)
Definition usersControllerExtended : ControllerMetadata.t :=
  ControllerMetadata.mk
    (Some "/users")
    (ControllerMetadata.routes usersController)
    [ DocDefinition.mk "removedRoute" (DocModel.mk "No such route");
      DocDefinition.mk "getUser" (DocModel.mk "Fetch one user");
      DocDefinition.mk "createUser" (DocModel.mk "Create a user") ]
    {[ "replaceUser" := 204; "createUser" := 202 ]}
    (RouteArgument.mk "createUser" QUERY "dryRun" :: ControllerMetadata.args usersController)
    {[ "getUser" := ["number"; "boolean"]; "createUser" := ["boolean"] ]}.

(** A controller with two documentation entries for one route and one
    for a route that does not exist. *)
Definition twiceDocumentedController : ControllerMetadata.t :=
  ControllerMetadata.mk
    (Some "/health")
    [ RouteDefinition.mk "check" "" GET; RouteDefinition.mk "reset" "" DELETE ]
    [ DocDefinition.mk "removedRoute" (DocModel.mk "No such route");
      DocDefinition.mk "check" (DocModel.mk "Liveness probe");
      DocDefinition.mk "check" (DocModel.mk "Shadowed description") ]
    ∅
    [ RouteArgument.mk "reset" BODY "body"; RouteArgument.mk "reset" CONTEXT "ctx" ]
    ∅.

(** A controller whose only route has a property name of
    [Object.prototype] as its full path. *)
Definition constructorController : ControllerMetadata.t :=
  ControllerMetadata.mk
    (Some "constructor")
    [ RouteDefinition.mk "make" "" GET ]
    [] ∅ [] ∅.

(** * Properties *)

(** ** One iteration of the route loop *)

(** The three cases of an iteration: the path is an own property of
    [paths], it is inherited, or the read finds nothing. *)
Lemma routeStep_own meta prefix h routeDef :
  is_Some (paths_obj h !! requestPath prefix routeDef) →
  routeStep meta prefix h routeDef
  = mkHeap
      (alter (λ item : OasPathItem,
                <[RouteDefinition.requestMethod routeDef := operation meta routeDef]> item)
             (requestPath prefix routeDef) (paths_obj h))
      (Object_prototype h).
Proof.
  intros [item Hitem]. unfold routeStep, holder. rewrite Hitem. cbn.
  rewrite Hitem. reflexivity.
Qed.

Lemma routeStep_inherited meta prefix h routeDef :
  paths_obj h !! requestPath prefix routeDef = None →
  requestPath prefix routeDef ∈ dom (Object_prototype h) →
  routeStep meta prefix h routeDef
  = mkHeap
      (paths_obj h)
      (alter (λ item : OasPathItem,
                <[RouteDefinition.requestMethod routeDef := operation meta routeDef]> item)
             (requestPath prefix routeDef) (Object_prototype h)).
Proof.
  intros Hown [item Hitem]%elem_of_dom. unfold routeStep, holder.
  rewrite Hown, Hitem. cbn. rewrite Hown, Hitem. reflexivity.
Qed.

Lemma routeStep_fresh meta prefix h routeDef :
  paths_obj h !! requestPath prefix routeDef = None →
  requestPath prefix routeDef ∉ dom (Object_prototype h) →
  routeStep meta prefix h routeDef
  = mkHeap
      (alter (λ item : OasPathItem,
                <[RouteDefinition.requestMethod routeDef := operation meta routeDef]> item)
             (requestPath prefix routeDef)
             (<[requestPath prefix routeDef := ∅]> (paths_obj h)))
      (Object_prototype h).
Proof.
  intros Hown Hproto%not_elem_of_dom. unfold routeStep, holder.
  rewrite Hown, Hproto. cbn. rewrite lookup_insert_eq. reflexivity.
Qed.

(** An iteration adds no name to [Object.prototype] and removes none. *)
Lemma routeStep_prototype_dom meta prefix h routeDef :
  dom (Object_prototype (routeStep meta prefix h routeDef)) = dom (Object_prototype h).
Proof.
  destruct (paths_obj h !! requestPath prefix routeDef) as [item|] eqn:Hown.
  - by rewrite routeStep_own.
  - destruct (decide (requestPath prefix routeDef ∈ dom (Object_prototype h))).
    + rewrite routeStep_inherited by done. apply dom_alter_L.
    + by rewrite routeStep_fresh.
Qed.

Lemma routeStep_inheritedNotOwn meta prefix h routeDef :
  inheritedNotOwn h → inheritedNotOwn (routeStep meta prefix h routeDef).
Proof.
  intros Hinv p. rewrite routeStep_prototype_dom. intros Hp.
  destruct (decide (requestPath prefix routeDef ∈ dom (Object_prototype h))) as [Hin|Hout].
  - rewrite routeStep_inherited by auto. by apply Hinv.
  - destruct (paths_obj h !! requestPath prefix routeDef) as [item|] eqn:Hown.
    + rewrite routeStep_own by done. cbn.
      rewrite lookup_alter_ne by congruence. by apply Hinv.
    + rewrite routeStep_fresh by done. cbn.
      rewrite lookup_alter_ne, lookup_insert_ne by congruence. by apply Hinv.
Qed.

(** The entries of [paths] after an iteration. *)
Lemma routeStep_operationAt meta prefix h routeDef p m :
  inheritedNotOwn h →
  operationAt (paths_obj (routeStep meta prefix h routeDef)) p m
  = if decide (p = requestPath prefix routeDef ∧
               m = RouteDefinition.requestMethod routeDef ∧
               requestPath prefix routeDef ∉ dom (Object_prototype h))
    then Some (operation meta routeDef)
    else operationAt (paths_obj h) p m.
Proof.
  intros Hinv. unfold operationAt.
  destruct (decide (requestPath prefix routeDef ∈ dom (Object_prototype h))) as [Hin|Hout].
  { rewrite routeStep_inherited by auto.
    rewrite decide_False by (intros (_ & _ & ?); done). reflexivity. }
  destruct (decide (p = requestPath prefix routeDef)) as [->|Hp].
  - destruct (paths_obj h !! requestPath prefix routeDef) as [item|] eqn:Hown.
    + rewrite routeStep_own by done. cbn. rewrite lookup_alter_eq, Hown. cbn.
      destruct (decide (m = RouteDefinition.requestMethod routeDef)) as [->|Hm].
      * rewrite lookup_insert_eq. by rewrite decide_True.
      * rewrite lookup_insert_ne by congruence.
        rewrite decide_False by (intros (_ & ? & _); done). reflexivity.
    + rewrite routeStep_fresh by done. cbn.
      rewrite lookup_alter_eq, lookup_insert_eq. cbn.
      destruct (decide (m = RouteDefinition.requestMethod routeDef)) as [->|Hm].
      * rewrite lookup_insert_eq. by rewrite decide_True.
      * rewrite lookup_insert_ne by congruence.
        rewrite decide_False by (intros (_ & ? & _); done). reflexivity.
  - rewrite decide_False by (intros (? & _ & _); done).
    destruct (paths_obj h !! requestPath prefix routeDef) as [item|] eqn:Hown.
    + rewrite routeStep_own by done. cbn. by rewrite lookup_alter_ne by congruence.
    + rewrite routeStep_fresh by done. cbn.
      by rewrite lookup_alter_ne, lookup_insert_ne by congruence.
Qed.

(** The properties stored on the objects of [Object.prototype] after an
    iteration. *)
Lemma routeStep_prototype_operationAt meta prefix h routeDef p m :
  inheritedNotOwn h →
  operationAt (Object_prototype (routeStep meta prefix h routeDef)) p m
  = if decide (p = requestPath prefix routeDef ∧
               m = RouteDefinition.requestMethod routeDef ∧
               requestPath prefix routeDef ∈ dom (Object_prototype h))
    then Some (operation meta routeDef)
    else operationAt (Object_prototype h) p m.
Proof.
  intros Hinv. unfold operationAt.
  destruct (decide (requestPath prefix routeDef ∈ dom (Object_prototype h))) as [Hin|Hout].
  - rewrite routeStep_inherited by auto. cbn.
    destruct (decide (p = requestPath prefix routeDef)) as [->|Hp].
    + rewrite lookup_alter_eq.
      apply elem_of_dom in Hin as [item Hitem]. rewrite Hitem. cbn.
      destruct (decide (m = RouteDefinition.requestMethod routeDef)) as [->|Hm].
      * rewrite lookup_insert_eq. rewrite decide_True; [reflexivity|].
        split; [done|]. split; [done|]. by apply elem_of_dom.
      * rewrite lookup_insert_ne by congruence.
        rewrite decide_False by (intros (_ & ? & _); done). reflexivity.
    + rewrite lookup_alter_ne by congruence.
      rewrite decide_False by (intros (? & _ & _); done). reflexivity.
  - rewrite decide_False by (intros (_ & _ & ?); done).
    destruct (paths_obj h !! requestPath prefix routeDef) as [item|] eqn:Hown.
    + by rewrite routeStep_own.
    + by rewrite routeStep_fresh.
Qed.

(** An iteration leaves no path of [paths] without a method. *)
Lemma routeStep_nonempty meta prefix h routeDef :
  (∀ p (item : OasPathItem), paths_obj h !! p = Some item → item ≠ ∅) →
  ∀ p (item : OasPathItem),
    paths_obj (routeStep meta prefix h routeDef) !! p = Some item → item ≠ ∅.
Proof.
  intros Hinv p item.
  destruct (paths_obj h !! requestPath prefix routeDef) as [item0|] eqn:Hown.
  - rewrite routeStep_own by done. cbn.
    destruct (decide (p = requestPath prefix routeDef)) as [->|Hp].
    + rewrite lookup_alter_eq, Hown. intros [= <-]. apply insert_non_empty.
    + rewrite lookup_alter_ne by congruence. apply Hinv.
  - destruct (decide (requestPath prefix routeDef ∈ dom (Object_prototype h))).
    + rewrite routeStep_inherited by done. apply Hinv.
    + rewrite routeStep_fresh by done. cbn.
      destruct (decide (p = requestPath prefix routeDef)) as [->|Hp].
      * rewrite lookup_alter_eq, lookup_insert_eq. intros [= <-].
        apply insert_non_empty.
      * rewrite lookup_alter_ne, lookup_insert_ne by congruence. apply Hinv.
Qed.



(** The printed table does not depend on what has been stored on the
    objects of [Object.prototype], only on their names. *)
Lemma routeStep_prototype_irrelevant meta prefix h1 h2 routeDef :
  paths_obj h1 = paths_obj h2 →
  dom (Object_prototype h1) = dom (Object_prototype h2) →
  paths_obj (routeStep meta prefix h1 routeDef)
  = paths_obj (routeStep meta prefix h2 routeDef).
Proof.
  intros Hpaths Hdom.
  destruct (paths_obj h1 !! requestPath prefix routeDef) as [item|] eqn:Hown.
  - rewrite !routeStep_own by (rewrite <- ?Hpaths; done). cbn. by rewrite Hpaths.
  - destruct (decide (requestPath prefix routeDef ∈ dom (Object_prototype h1))).
    + rewrite !routeStep_inherited by (rewrite <- ?Hpaths, <- ?Hdom; done). done.
    + rewrite !routeStep_fresh by (rewrite <- ?Hpaths, <- ?Hdom; done).
      cbn. by rewrite Hpaths.
Qed.

(** ** The route loop over a sequence of iterations *)

Lemma foldl_routeStep meta prefix h routes :
  foldl (routeStep meta prefix) h routes
  = foldl processedStep h ((λ routeDef, (meta, prefix, routeDef)) <$> routes).
Proof. rewrite foldl_fmap. reflexivity. Qed.

Lemma foldl_processedStep_prototype_dom l h :
  dom (Object_prototype (foldl processedStep h l)) = dom (Object_prototype h).
Proof.
  revert h. induction l as [|it l IH]; intros h; [reflexivity|].
  simpl. rewrite IH. apply routeStep_prototype_dom.
Qed.

Lemma foldl_processedStep_inheritedNotOwn l h :
  inheritedNotOwn h → inheritedNotOwn (foldl processedStep h l).
Proof.
  revert h. induction l as [|it l IH]; intros h Hinv; [exact Hinv|].
  simpl. apply IH. by apply routeStep_inheritedNotOwn.
Qed.

Lemma lastWrite_app l1 l2 p m :
  lastWrite (l1 ++ l2) p m
  = match lastWrite l2 p m with Some op => Some op | None => lastWrite l1 p m end.
Proof.
  unfold lastWrite. rewrite filter_app, last_app.
  by destruct (last (filter _ l2)).
Qed.

Lemma lastWrite_singleton it p m :
  lastWrite [it] p m
  = if decide (p = processedPath it ∧ m = processedMethod it)
    then Some (processedOperation it) else None.
Proof.
  unfold lastWrite. rewrite filter_cons, filter_nil.
  destruct (decide (processedPath it = p ∧ processedMethod it = m)) as [[<- <-]|Hne].
  - by rewrite decide_True.
  - rewrite decide_False; [reflexivity|]. intros [-> ->]. by apply Hne.
Qed.

Lemma lastWrite_Some l p m op :
  lastWrite l p m = Some op →
  ∃ it, it ∈ l ∧ processedPath it = p ∧ processedMethod it = m ∧
        op = processedOperation it.
Proof.
  unfold lastWrite. destruct (last _) as [it|] eqn:Hlast; [|discriminate].
  intros [= <-]. apply last_Some_elem_of, list_elem_of_filter in Hlast as [[? ?] ?].
  by exists it.
Qed.

Lemma lastWrite_is_Some l it :
  it ∈ l → is_Some (lastWrite l (processedPath it) (processedMethod it)).
Proof.
  intros Hin. unfold lastWrite. apply fmap_is_Some, last_is_Some.
  intros Hnil. by apply (filter_nil_not_elem_of _ _ it) in Hnil.
Qed.

Lemma filter_none {A} (P : A → Prop) `{!∀ x, Decision (P x)} (l : list A) :
  Forall (λ x, ¬ P x) l → filter P l = [].
Proof.
  induction 1 as [|x l Hx _ IH]; [reflexivity|].
  by rewrite filter_cons_False.
Qed.


(** Reading [paths] after a run of the route loop: under a name that is
    not inherited, the last write; under an inherited name, nothing new. *)
Lemma foldl_processedStep_operationAt l h p m :
  inheritedNotOwn h →
  operationAt (paths_obj (foldl processedStep h l)) p m
  = if decide (p ∈ dom (Object_prototype h))
    then operationAt (paths_obj h) p m
    else match lastWrite l p m with
         | Some op => Some op
         | None => operationAt (paths_obj h) p m
         end.
Proof.
  intros Hinv. induction l as [|it l IH] using rev_ind.
  { simpl. by destruct (decide _). }
  rewrite foldl_snoc. unfold processedStep at 1.
  rewrite routeStep_operationAt by by apply foldl_processedStep_inheritedNotOwn.
  rewrite foldl_processedStep_prototype_dom, IH, lastWrite_app, lastWrite_singleton.
  fold (processedPath it) (processedMethod it) (processedOperation it).
  destruct (decide (p ∈ dom (Object_prototype h))) as [Hin|Hout].
  - rewrite decide_False; [reflexivity|]. intros (-> & _ & ?). done.
  - destruct (decide (p = processedPath it ∧ m = processedMethod it)) as [[-> ->]|Hne].
    + by rewrite decide_True.
    + rewrite decide_False; [reflexivity|]. intros (? & ? & _). by apply Hne.
Qed.

(** Reading the objects of [Object.prototype] after a run of the route
    loop: under an inherited name, the last write. *)
Lemma foldl_processedStep_prototype_operationAt l h p m :
  inheritedNotOwn h →
  operationAt (Object_prototype (foldl processedStep h l)) p m
  = if decide (p ∈ dom (Object_prototype h))
    then match lastWrite l p m with
         | Some op => Some op
         | None => operationAt (Object_prototype h) p m
         end
    else operationAt (Object_prototype h) p m.
Proof.
  intros Hinv. induction l as [|it l IH] using rev_ind.
  { simpl. by destruct (decide _). }
  rewrite foldl_snoc. unfold processedStep at 1.
  rewrite routeStep_prototype_operationAt by by apply foldl_processedStep_inheritedNotOwn.
  rewrite foldl_processedStep_prototype_dom, IH, lastWrite_app, lastWrite_singleton.
  fold (processedPath it) (processedMethod it) (processedOperation it).
  destruct (decide (p ∈ dom (Object_prototype h))) as [Hin|Hout].
  - destruct (decide (p = processedPath it ∧ m = processedMethod it)) as [[-> ->]|Hne].
    + by rewrite decide_True.
    + rewrite decide_False; [reflexivity|]. intros (? & ? & _). by apply Hne.
  - rewrite decide_False; [reflexivity|]. intros (-> & _ & ?). done.
Qed.

(** The route loop never leaves a path without a method. *)
Lemma foldl_processedStep_nonempty l h :
  (∀ p (item : OasPathItem), paths_obj h !! p = Some item → item ≠ ∅) →
  ∀ p (item : OasPathItem),
    paths_obj (foldl processedStep h l) !! p = Some item → item ≠ ∅.
Proof.
  revert h. induction l as [|it l IH]; intros h Hinv; [exact Hinv|].
  simpl. apply IH. by apply routeStep_nonempty.
Qed.


Lemma foldl_processedStep_prototype_irrelevant l h1 h2 :
  paths_obj h1 = paths_obj h2 →
  dom (Object_prototype h1) = dom (Object_prototype h2) →
  paths_obj (foldl processedStep h1 l) = paths_obj (foldl processedStep h2 l).
Proof.
  revert h1 h2. induction l as [|it l IH]; intros h1 h2 Hpaths Hdom; [exact Hpaths|].
  simpl. apply IH.
  - by apply routeStep_prototype_irrelevant.
  - unfold processedStep. by rewrite !routeStep_prototype_dom.
Qed.

(** ** The controller loop *)

Section ControllerLoop.
Context {Newable : Type}.
Variable getControllerOwnMeta : Newable → option ControllerMetadata.t.

Lemma truthyPrefix_Some controller meta prefix :
  truthyPrefix getControllerOwnMeta controller = Some (meta, prefix) ↔
  getControllerOwnMeta controller = Some meta ∧
  ControllerMetadata.prefix meta = Some prefix ∧ prefix ≠ "".
Proof.
  unfold truthyPrefix.
  destruct (getControllerOwnMeta controller) as [meta'|];
    [|split; [discriminate | intros [? _]; discriminate]].
  destruct (ControllerMetadata.prefix meta') as [prefix'|] eqn:Hprefix.
  - destruct (decide (prefix' = "")) as [->|Hne].
    + split; [discriminate|]. intros ([= <-] & Hp & Hne). congruence.
    + split.
      * intros [= <- <-]. done.
      * intros ([= <-] & Hp & _). congruence.
  - split; [discriminate|]. intros ([= <-] & Hp & _). congruence.
Qed.

Lemma processedRoutes_app controllers1 controllers2 :
  processedRoutes getControllerOwnMeta (controllers1 ++ controllers2)
  = (processedRoutes getControllerOwnMeta controllers1
     ++ processedRoutes getControllerOwnMeta controllers2)%list.
Proof. apply bind_app. Qed.

Lemma processedRoutes_cons controller controllers :
  processedRoutes getControllerOwnMeta (controller :: controllers)
  = (processedRoutes getControllerOwnMeta [controller]
     ++ processedRoutes getControllerOwnMeta controllers)%list.
Proof. apply (processedRoutes_app [controller]). Qed.

Lemma elem_of_processedRoutes controllers meta prefix routeDef :
  (meta, prefix, routeDef) ∈ processedRoutes getControllerOwnMeta controllers ↔
  ∃ controller,
    controller ∈ controllers ∧
    truthyPrefix getControllerOwnMeta controller = Some (meta, prefix) ∧
    routeDef ∈ ControllerMetadata.routes meta.
Proof.
  unfold processedRoutes. rewrite list_elem_of_bind. split.
  - intros (controller & Hit & Hin). exists controller. split; [exact Hin|].
    destruct (truthyPrefix getControllerOwnMeta controller) as [[meta' prefix']|].
    + apply list_elem_of_fmap in Hit as (routeDef' & [= -> -> ->] & Hroute). done.
    + by apply not_elem_of_nil in Hit.
  - intros (controller & Hin & Hprefix & Hroute). exists controller.
    split; [|exact Hin]. rewrite Hprefix.
    apply list_elem_of_fmap. by exists routeDef.
Qed.

Lemma controllerStep_skip st controller :
  truthyPrefix getControllerOwnMeta controller = None →
  controllerStep getControllerOwnMeta st controller = st.
Proof. intros Hskip. unfold controllerStep. by rewrite Hskip. Qed.

Lemma foldl_controllerStep_skip st before controller after :
  truthyPrefix getControllerOwnMeta controller = None →
  foldl (controllerStep getControllerOwnMeta) st (before ++ controller :: after)
  = foldl (controllerStep getControllerOwnMeta) st (before ++ after).
Proof.
  intros Hskip. rewrite !foldl_app. simpl.
  by rewrite controllerStep_skip.
Qed.

(** The two objects after the controller loop are those of the route
    loop run over all iterations. *)
Lemma foldl_controllerStep_heap st controllers :
  heap (foldl (controllerStep getControllerOwnMeta) st controllers)
  = foldl processedStep (heap st) (processedRoutes getControllerOwnMeta controllers).
Proof.
  revert st. induction controllers as [|c cs IH]; intros st; [reflexivity|].
  simpl. rewrite IH. unfold processedRoutes. simpl. rewrite foldl_app.
  f_equal. unfold controllerStep.
  destruct (truthyPrefix getControllerOwnMeta c) as [[meta prefix]|]; [|reflexivity].
  simpl. apply foldl_routeStep.
Qed.

(** As long as [OAS_ROOT.paths] still is its own empty object, nothing
    has been written to the local object [paths] either. *)
Lemma foldl_controllerStep_unlinked st controllers :
  (OAS_ROOT_paths st = OwnEmptyObject → paths_obj (heap st) = ∅) →
  OAS_ROOT_paths (foldl (controllerStep getControllerOwnMeta) st controllers)
    = OwnEmptyObject →
  paths_obj (heap (foldl (controllerStep getControllerOwnMeta) st controllers)) = ∅.
Proof.
  revert st. induction controllers as [|c cs IH]; intros st Hinv; [exact Hinv|].
  simpl. apply IH. unfold controllerStep.
  destruct (truthyPrefix getControllerOwnMeta c) as [[meta prefix]|];
    [discriminate | exact Hinv].
Qed.

Lemma finalState_heap proto this :
  heap (finalState getControllerOwnMeta proto this)
  = foldl processedStep (mkHeap ∅ proto)
      (processedRoutes getControllerOwnMeta (appConfig_controllers this)).
Proof. apply (foldl_controllerStep_heap (mkLoopState (mkHeap ∅ proto) OwnEmptyObject)). Qed.

(** The [paths] of the printed document are the local object [paths]
    as the loops leave it, whether or not the assignment
    [OAS_ROOT.paths = paths] was ever reached. *)
Lemma OAS_ROOT_paths_final proto this :
  OpenApiSpecRoot.paths (OAS_ROOT getControllerOwnMeta proto this)
  = paths_obj
      (foldl processedStep (mkHeap ∅ proto)
         (processedRoutes getControllerOwnMeta (appConfig_controllers this))).
Proof.
  rewrite <- finalState_heap. unfold OAS_ROOT. cbn [OpenApiSpecRoot.paths].
  destruct (OAS_ROOT_paths _) eqn:Href; [|reflexivity].
  symmetry. revert Href. by apply foldl_controllerStep_unlinked.
Qed.

(** The printed document, with its [paths] as the route loop run over all
    iterations. *)
Lemma OAS_ROOT_unfold proto this :
  OAS_ROOT getControllerOwnMeta proto this
  = OpenApiSpecRoot.mk
      OAS_VERSION
      (OasInfo.mk (title this) (applicationVersion this) (desc this))
      (paths_obj
         (foldl processedStep (mkHeap ∅ proto)
            (processedRoutes getControllerOwnMeta (appConfig_controllers this))))
      (OasComponents.mk ∅ ∅ ∅ ∅ ∅ ∅ ∅ ∅ ∅).
Proof. rewrite <- OAS_ROOT_paths_final. reflexivity. Qed.

Lemma inheritedNotOwn_initial proto : inheritedNotOwn (mkHeap ∅ proto).
Proof. intros p _. apply lookup_empty. Qed.

(** The entry of the printed document for a path and a method. *)
Lemma OAS_ROOT_operationAt proto this p m :
  operationAt (OpenApiSpecRoot.paths (OAS_ROOT getControllerOwnMeta proto this)) p m
  = if decide (p ∈ dom proto) then None
    else lastWrite (processedRoutes getControllerOwnMeta (appConfig_controllers this)) p m.
Proof.
  rewrite OAS_ROOT_paths_final.
  rewrite foldl_processedStep_operationAt by apply inheritedNotOwn_initial.
  cbn [Object_prototype paths_obj]. unfold operationAt at 1 2.
  rewrite lookup_empty. cbn. destruct (decide _); [reflexivity|].
  by destruct (lastWrite _ p m).
Qed.

(** Every operation of the printed document is the operation of a
    processed route, stored under that route's path and method. *)
Lemma OAS_ROOT_operation_provenance proto this p m op :
  operationAt (OpenApiSpecRoot.paths (OAS_ROOT getControllerOwnMeta proto this)) p m
    = Some op →
  ∃ it, it ∈ processedRoutes getControllerOwnMeta (appConfig_controllers this) ∧
        processedPath it = p ∧ processedMethod it = m ∧ op = processedOperation it.
Proof.
  rewrite OAS_ROOT_operationAt. destruct (decide _); [discriminate|].
  apply lastWrite_Some.
Qed.

Lemma OAS_ROOT_skip proto before controller after title desc version :
  truthyPrefix getControllerOwnMeta controller = None →
  OAS_ROOT getControllerOwnMeta proto
    (mkBuilder (before ++ controller :: after) title desc version)
  = OAS_ROOT getControllerOwnMeta proto (mkBuilder (before ++ after) title desc version).
Proof.
  intros Hskip. unfold OAS_ROOT, finalState. simpl.
  by rewrite foldl_controllerStep_skip.
Qed.

(** The printed document depends on [Object.prototype] through the names
    of its properties only, not through what is stored on them. *)
Lemma OAS_ROOT_prototype_irrelevant proto1 proto2 this :
  dom proto1 = dom proto2 →
  OAS_ROOT getControllerOwnMeta proto1 this = OAS_ROOT getControllerOwnMeta proto2 this.
Proof.
  intros Hdom. rewrite !OAS_ROOT_unfold. f_equal.
  by apply foldl_processedStep_prototype_irrelevant.
Qed.

(** [build] adds no name to [Object.prototype] and removes none. *)
Lemma build_prototype_dom path this w :
  dom (prototype (build getControllerOwnMeta path this w).2) = dom (prototype w).
Proof.
  unfold build. cbn [snd prototype].
  rewrite finalState_heap. apply foldl_processedStep_prototype_dom.
Qed.
End ControllerLoop.

(** ** The parameters of an operation *)

(** The parameter published for the retained argument at a position:
    its name, its location and the type found at the same position. *)
Lemma operation_parameter meta routeDef index arg :
  retainedArgs meta routeDef !! index = Some arg →
  OasOperation.parameters (operation meta routeDef) !! index
  = Some (OasParameter.mk
            (RouteArgument.key arg)
            (if decide (RouteArgument.type arg = PARAM)
             then InLiteral "path" else InArgsType (RouteArgument.type arg))
            (OasSchema.mk (filteredArgTypes meta routeDef !! index))).
Proof.
  intros Harg. unfold operation, filteredArgs. simpl.
  rewrite list_lookup_imap, list_lookup_fmap, Harg. simpl.
  unfold relabel. destruct (decide (RouteArgument.type arg = PARAM)); reflexivity.
Qed.

Lemma operation_parameters_length meta routeDef :
  length (OasOperation.parameters (operation meta routeDef))
  = length (retainedArgs meta routeDef).
Proof.
  unfold operation, filteredArgs. simpl.
  by rewrite length_imap, length_fmap.
Qed.

Lemma not_excluded_iff (t : ArgsType) :
  t ≠ BODY ∧ t ≠ CONTEXT ∧ t ≠ REQUEST ∧ t ≠ RESPONSE ↔ t ∉ excludedTypes.
Proof.
  unfold excludedTypes. rewrite !not_elem_of_cons.
  split; [intros (?&?&?&?); repeat split; try done; apply not_elem_of_nil
         | intros (?&?&?&?&_); done].
Qed.

(** * The claims *)

(** C1. For every route, the only key of the [responses] of its operation
    is the effective status code: the code that [defaultResponseCodes]
    holds for the route's [methodName] when there is one (a safe integer,
    printed as its decimal numeral); otherwise 201 when the
    [requestMethod] is POST; otherwise 200. *)
Theorem default_response_code meta routeDef :
  (∀ explicit : Z,
     ControllerMetadata.defaultResponseCodes meta !! RouteDefinition.methodName routeDef
       = Some explicit →
     safeInteger explicit →
     OasOperation.responses (operation meta routeDef)
       = {[ pretty explicit := OasResponse.mk "" ]}) ∧
  (ControllerMetadata.defaultResponseCodes meta !! RouteDefinition.methodName routeDef
     = None →
   RouteDefinition.requestMethod routeDef = POST →
   OasOperation.responses (operation meta routeDef) = {[ "201" := OasResponse.mk "" ]}) ∧
  (ControllerMetadata.defaultResponseCodes meta !! RouteDefinition.methodName routeDef
     = None →
   RouteDefinition.requestMethod routeDef ≠ POST →
   OasOperation.responses (operation meta routeDef) = {[ "200" := OasResponse.mk "" ]}).
Proof.
  unfold operation, code. simpl. repeat split.
  - intros explicit -> _. reflexivity.
  - intros -> ->. reflexivity.
  - intros -> Hmethod. simpl. by rewrite decide_False.
Qed.

Lemma default_response_code_witness :
  OasOperation.responses
    (operation usersController (RouteDefinition.mk "replaceUser" "/:id" PUT))
    = {[ "204" := OasResponse.mk "" ]} ∧
  OasOperation.responses
    (operation usersController (RouteDefinition.mk "createUser" "/" POST))
    = {[ "201" := OasResponse.mk "" ]} ∧
  OasOperation.responses
    (operation usersController (RouteDefinition.mk "getUser" "/:id" GET))
    = {[ "200" := OasResponse.mk "" ]}.
Proof.
  split; [|split].
  - apply (proj1 (default_response_code usersController
                    (RouteDefinition.mk "replaceUser" "/:id" PUT)) 204).
    + reflexivity.
    + unfold safeInteger, MAX_SAFE_INTEGER. lia.
  - apply (proj1 (proj2 (default_response_code usersController
                           (RouteDefinition.mk "createUser" "/" POST))));
      reflexivity.
  - apply (proj2 (proj2 (default_response_code usersController
                           (RouteDefinition.mk "getUser" "/:id" GET))));
      [reflexivity | discriminate].
Defined.

(** C2. For every route, the [parameters] of its operation correspond
    one for one, in declaration order, to the argument descriptors whose
    [argFor] is the route's [methodName] and whose [type] is none of BODY,
    CONTEXT, REQUEST and RESPONSE; no parameter carries one of these four
    kinds. *)
Theorem argument_exclusion meta routeDef :
  Forall2
    (λ p arg,
       OasParameter.name p = RouteArgument.key arg ∧
       OasParameter.in_ p ∉ InArgsType <$> excludedTypes)
    (OasOperation.parameters (operation meta routeDef))
    (filter
       (λ arg,
          RouteArgument.argFor arg = RouteDefinition.methodName routeDef ∧
          RouteArgument.type arg ∉ excludedTypes)
       (ControllerMetadata.args meta)).
Proof.
  assert (filter
            (λ arg,
               RouteArgument.argFor arg = RouteDefinition.methodName routeDef ∧
               RouteArgument.type arg ∉ excludedTypes)
            (ControllerMetadata.args meta)
          = retainedArgs meta routeDef) as ->.
  { unfold retainedArgs. apply list_filter_iff. intros arg.
    by rewrite not_excluded_iff. }
  apply Forall2_same_length_lookup_2; [apply operation_parameters_length|].
  intros index p arg Hp Harg.
  rewrite (operation_parameter _ _ _ _ Harg) in Hp. inversion_clear Hp.
  cbn [OasParameter.name OasParameter.in_].
  split; [reflexivity|].
  apply list_elem_of_lookup_2, list_elem_of_filter in Harg as [(_ & Hkept) _].
  apply not_excluded_iff in Hkept.
  destruct (decide (RouteArgument.type arg = PARAM)).
  - intros (t & ? & _)%list_elem_of_fmap. discriminate.
  - intros (t & [= <-] & ?)%list_elem_of_fmap. done.
Qed.

(** C3. The parameter published for a retained argument of type PARAM has
    [in] equal to the string ["path"]; the parameter published for any
    other retained argument has [in] equal to the argument's own type. *)
Theorem param_relabeling meta routeDef index arg :
  retainedArgs meta routeDef !! index = Some arg →
  ∃ p,
    OasOperation.parameters (operation meta routeDef) !! index = Some p ∧
    OasParameter.name p = RouteArgument.key arg ∧
    (RouteArgument.type arg = PARAM → OasParameter.in_ p = InLiteral "path") ∧
    (RouteArgument.type arg ≠ PARAM →
     OasParameter.in_ p = InArgsType (RouteArgument.type arg)).
Proof.
  intros Harg. eexists. split; [by apply operation_parameter|]. simpl.
  split; [reflexivity|].
  destruct (decide (RouteArgument.type arg = PARAM)); split; done.
Qed.

Lemma param_relabeling_witness :
  (∃ p,
     OasOperation.parameters
       (operation usersController (RouteDefinition.mk "getUser" "/:id" GET)) !! 0%nat
       = Some p ∧
     OasParameter.name p = "id" ∧
     (PARAM = PARAM → OasParameter.in_ p = InLiteral "path") ∧
     (PARAM ≠ PARAM → OasParameter.in_ p = InArgsType PARAM)) ∧
  (∃ p,
     OasOperation.parameters
       (operation usersController (RouteDefinition.mk "getUser" "/:id" GET)) !! 1%nat
       = Some p ∧
     OasParameter.name p = "verbose" ∧
     (QUERY = PARAM → OasParameter.in_ p = InLiteral "path") ∧
     (QUERY ≠ PARAM → OasParameter.in_ p = InArgsType QUERY)).
Proof.
  split.
  - apply (param_relabeling usersController (RouteDefinition.mk "getUser" "/:id" GET)
             0%nat (RouteArgument.mk "getUser" PARAM "id")).
    reflexivity.
  - apply (param_relabeling usersController (RouteDefinition.mk "getUser" "/:id" GET)
             1%nat (RouteArgument.mk "getUser" QUERY "verbose")).
    reflexivity.
Defined.

(** C4. The [schema.type] of the parameter at a position of the retained
    arguments is the entry at the same position of the route's [argTypes]
    sequence; past the end of that sequence, and everywhere when the route
    has no [argTypes] entry, it is undefined.  Every retained argument
    gets its parameter all the same. *)
Theorem argTypes_positional_zip meta routeDef index arg :
  retainedArgs meta routeDef !! index = Some arg →
  ∃ p,
    OasOperation.parameters (operation meta routeDef) !! index = Some p ∧
    OasParameter.name p = RouteArgument.key arg ∧
    (∀ types,
       ControllerMetadata.argTypes meta !! RouteDefinition.methodName routeDef
         = Some types →
       OasSchema.type (OasParameter.schema p) = types !! index ∧
       (length types ≤ index → OasSchema.type (OasParameter.schema p) = None)%nat) ∧
    (ControllerMetadata.argTypes meta !! RouteDefinition.methodName routeDef = None →
     OasSchema.type (OasParameter.schema p) = None).
Proof.
  intros Harg. eexists. split; [by apply operation_parameter|]. simpl.
  split; [reflexivity|]. unfold filteredArgTypes. split.
  - intros types ->. simpl. split; [reflexivity|]. apply lookup_ge_None_2.
  - intros ->. reflexivity.
Qed.

Lemma argTypes_positional_zip_witness :
  ∃ p,
    OasOperation.parameters
      (operation usersController (RouteDefinition.mk "getUser" "/:id" GET)) !! 2%nat
      = Some p ∧
    OasParameter.name p = "x-trace" ∧
    (∀ types,
       ControllerMetadata.argTypes usersController !! "getUser" = Some types →
       OasSchema.type (OasParameter.schema p) = types !! 2%nat ∧
       (length types ≤ 2 → OasSchema.type (OasParameter.schema p) = None)%nat) ∧
    (ControllerMetadata.argTypes usersController !! "getUser" = None →
     OasSchema.type (OasParameter.schema p) = None).
Proof.
  apply (argTypes_positional_zip usersController
           (RouteDefinition.mk "getUser" "/:id" GET)
           2%nat (RouteArgument.mk "getUser" HEADER "x-trace")).
  reflexivity.
Defined.



(** C6. A controller class without metadata, and a controller whose
    metadata has no [prefix], is passed over: the loop state is left as it
    was, and the printed document is the one printed without that
    controller, so it contributes no entry to [paths]. *)
Theorem skip_rule {Newable : Type}
    (getControllerOwnMeta : Newable → option ControllerMetadata.t)
    (controller : Newable) :
  getControllerOwnMeta controller = None ∨
  (∃ meta, getControllerOwnMeta controller = Some meta ∧
           ControllerMetadata.prefix meta = None) →
  (∀ st, controllerStep getControllerOwnMeta st controller = st) ∧
  processedRoutes getControllerOwnMeta [controller] = [] ∧
  (∀ proto before after title desc version,
     OAS_ROOT getControllerOwnMeta proto
       (mkBuilder (before ++ controller :: after) title desc version)
     = OAS_ROOT getControllerOwnMeta proto
         (mkBuilder (before ++ after) title desc version)).
Proof.
  intros Habsent.
  assert (truthyPrefix getControllerOwnMeta controller = None) as Hskip.
  { unfold truthyPrefix. destruct Habsent as [->|(meta & -> & ->)]; reflexivity. }
  split; [|split].
  - intros st. by apply controllerStep_skip.
  - unfold processedRoutes. simpl. by rewrite Hskip.
  - intros. by apply OAS_ROOT_skip.
Qed.

Lemma skip_rule_witness :
  OAS_ROOT sampleMeta initialObjectPrototype (new [None; Some usersController])
    = OAS_ROOT sampleMeta initialObjectPrototype (new [Some usersController]) ∧
  OAS_ROOT sampleMeta initialObjectPrototype
    (new [Some usersController; Some noPrefixController])
    = OAS_ROOT sampleMeta initialObjectPrototype (new [Some usersController]).
Proof.
  split.
  - exact (proj2 (proj2 (skip_rule sampleMeta None (or_introl eq_refl)))
             initialObjectPrototype
             [] [Some usersController] DEFAULT_TITLE DEFAULT_DESC APP_VERSION).
  - exact (proj2 (proj2 (skip_rule sampleMeta (Some noPrefixController)
                           (or_intror (ex_intro _ noPrefixController
                                         (conj eq_refl eq_refl)))))
             initialObjectPrototype
             [Some usersController] [] DEFAULT_TITLE DEFAULT_DESC APP_VERSION).
Defined.



(** C8. Calling [build] twice on an instance, with the metadata and the
    header configuration unchanged, prints the same document twice and
    leaves the instance as it was, whatever the first call has stored on
    the objects of [Object.prototype]. *)
Theorem build_deterministic {Newable : Type}
    (getControllerOwnMeta : Newable → option ControllerMetadata.t)
    (this : OasAutogenBuilder Newable) (w : World) path1 path2 :
  (build getControllerOwnMeta path2
     (build getControllerOwnMeta path1 this w).1
     (build getControllerOwnMeta path1 this w).2).1 = this ∧
  console
    (build getControllerOwnMeta path2
       (build getControllerOwnMeta path1 this w).1
       (build getControllerOwnMeta path1 this w).2).2
  = (console w ++ [OAS_ROOT getControllerOwnMeta (prototype w) this;
                   OAS_ROOT getControllerOwnMeta (prototype w) this])%list.
Proof.
  split; [reflexivity|].
  pose proof (build_prototype_dom getControllerOwnMeta path1 this w) as Hdom.
  unfold build at 1. cbn [fst snd console].
  rewrite (OAS_ROOT_prototype_irrelevant _ _ (prototype w)) by exact Hdom.
  unfold build. cbn [fst snd console]. by rewrite <- (assoc_L (++)).
Qed.

(** The header fields after a sequence of setter calls. *)
Lemma foldl_callSetter {Newable : Type} (this : OasAutogenBuilder Newable) calls :
  foldl callSetter this calls
  = mkBuilder (appConfig_controllers this)
      (nullish (configuredTitle calls) (title this))
      (nullish (configuredDesc calls) (desc this))
      (nullish (configuredVersion calls) (applicationVersion this)).
Proof.
  induction calls as [|c calls IH] using rev_ind; [by destruct this|].
  rewrite foldl_snoc, IH.
  unfold configuredTitle, configuredDesc, configuredVersion.
  rewrite !omap_app. destruct c; simpl;
    rewrite ?last_snoc, ?(right_id_L [] (++)); reflexivity.
Qed.

(** C9. For an application without controllers, whatever setters were
    called before [build], the printed document has the fixed [openapi]
    version, an [info] block holding for each of title, version and
    description the value configured last or else its default, an empty
    [paths] and nine empty [components] maps. *)
Theorem empty_case {Newable : Type}
    (getControllerOwnMeta : Newable → option ControllerMetadata.t)
    (proto : ObjectPrototype) (calls : list SetterCall) :
  OAS_ROOT getControllerOwnMeta proto (foldl callSetter (new []) calls)
  = OpenApiSpecRoot.mk
      "3.0.0"
      (OasInfo.mk
         (nullish (configuredTitle calls) "OpenAPI Spec 3.0.0 compliant documentation")
         (nullish (configuredVersion calls) "1.0.0")
         (nullish (configuredDesc calls) "Autogenerated OAS documentation by Dactyl"))
      ∅
      (OasComponents.mk ∅ ∅ ∅ ∅ ∅ ∅ ∅ ∅ ∅).
Proof. rewrite foldl_callSetter. reflexivity. Qed.

(** C10. A controller whose metadata has the empty string as [prefix] is
    passed over exactly as one whose metadata has no [prefix]: the loop
    state is left as it was, the printed document is the one printed
    without that controller, and it is also the one printed with a
    prefix-less controller in its place. *)
Theorem empty_prefix_skipped {Newable : Type}
    (getControllerOwnMeta : Newable → option ControllerMetadata.t)
    (controller : Newable) (meta : ControllerMetadata.t) :
  getControllerOwnMeta controller = Some meta →
  ControllerMetadata.prefix meta = Some "" →
  (∀ st, controllerStep getControllerOwnMeta st controller = st) ∧
  processedRoutes getControllerOwnMeta [controller] = [] ∧
  (∀ proto before after title desc version,
     OAS_ROOT getControllerOwnMeta proto
       (mkBuilder (before ++ controller :: after) title desc version)
     = OAS_ROOT getControllerOwnMeta proto
         (mkBuilder (before ++ after) title desc version)) ∧
  (∀ proto controller' meta' before after title desc version,
     getControllerOwnMeta controller' = Some meta' →
     ControllerMetadata.prefix meta' = None →
     OAS_ROOT getControllerOwnMeta proto
       (mkBuilder (before ++ controller :: after) title desc version)
     = OAS_ROOT getControllerOwnMeta proto
         (mkBuilder (before ++ controller' :: after) title desc version)).
Proof.
  intros Hmeta Hprefix.
  assert (truthyPrefix getControllerOwnMeta controller = None) as Hskip.
  { unfold truthyPrefix. by rewrite Hmeta, Hprefix. }
  split; [|split; [|split]].
  - intros st. by apply controllerStep_skip.
  - unfold processedRoutes. simpl. by rewrite Hskip.
  - intros. by apply OAS_ROOT_skip.
  - intros proto controller' meta' before after title desc version Hmeta' Hprefix'.
    rewrite !OAS_ROOT_skip; [reflexivity| |exact Hskip].
    unfold truthyPrefix. by rewrite Hmeta', Hprefix'.
Qed.

Lemma empty_prefix_skipped_witness :
  OAS_ROOT sampleMeta initialObjectPrototype
    (new [Some emptyPrefixController; Some usersController])
    = OAS_ROOT sampleMeta initialObjectPrototype (new [Some usersController]) ∧
  OAS_ROOT sampleMeta initialObjectPrototype
    (new [Some emptyPrefixController; Some usersController])
    = OAS_ROOT sampleMeta initialObjectPrototype
        (new [Some noPrefixController; Some usersController]).
Proof.
  split.
  - exact (proj1 (proj2 (proj2 (empty_prefix_skipped sampleMeta
                                  (Some emptyPrefixController) emptyPrefixController
                                  eq_refl eq_refl)))
             initialObjectPrototype
             [] [Some usersController] DEFAULT_TITLE DEFAULT_DESC APP_VERSION).
  - exact (proj2 (proj2 (proj2 (empty_prefix_skipped sampleMeta
                                  (Some emptyPrefixController) emptyPrefixController
                                  eq_refl eq_refl)))
             initialObjectPrototype
             (Some noPrefixController) noPrefixController
             [] [Some usersController] DEFAULT_TITLE DEFAULT_DESC APP_VERSION
             eq_refl eq_refl).
Defined.

(** * Further properties of the builder *)

(** ** The document as a whole *)

Section Document.
Context {Newable : Type}.
Variable getControllerOwnMeta : Newable → option ControllerMetadata.t.
Variable proto : ObjectPrototype.

(** X1. The entry of the printed document for a path and a method is the
    operation of the last processed route with that path and method;
    there is no entry when no processed route has them, and none under a
    path that is a property name of [Object.prototype]. *)
Theorem document_entry_is_last_write this p m :
  operationAt (OpenApiSpecRoot.paths (OAS_ROOT getControllerOwnMeta proto this)) p m
  = if decide (p ∈ dom proto) then None
    else lastWrite (processedRoutes getControllerOwnMeta (appConfig_controllers this)) p m.
Proof. apply OAS_ROOT_operationAt. Qed.

(** X2. Every operation of the printed document was assembled for a route
    of one of the application's controllers, a controller that has
    metadata with a non-empty prefix, and sits under that prefix followed
    by the route's path and under the route's request method. *)
Theorem document_operation_from_route this p m op :
  operationAt (OpenApiSpecRoot.paths (OAS_ROOT getControllerOwnMeta proto this)) p m
    = Some op →
  ∃ controller meta prefix routeDef,
    controller ∈ appConfig_controllers this ∧
    getControllerOwnMeta controller = Some meta ∧
    ControllerMetadata.prefix meta = Some prefix ∧
    prefix ≠ "" ∧
    routeDef ∈ ControllerMetadata.routes meta ∧
    p = prefix +:+ RouteDefinition.path routeDef ∧
    m = RouteDefinition.requestMethod routeDef ∧
    op = operation meta routeDef.
Proof.
  intros Hop. apply OAS_ROOT_operation_provenance in Hop
    as ([[meta prefix] routeDef] & Hin & <- & <- & ->).
  apply elem_of_processedRoutes in Hin as (controller & Hin & Hprefix & Hroute).
  apply truthyPrefix_Some in Hprefix as (Hmeta & Hprefix & Hne).
  by exists controller, meta, prefix, routeDef.
Qed.

(** X3. Every route of every controller that has metadata with a
    non-empty prefix has an entry in the printed document, under the
    prefix followed by its path and under its request method, provided
    that this full path is not a property name of [Object.prototype];
    this also holds when the controller comes after the first one that
    was processed. *)
Theorem document_covers_routes this controller meta prefix routeDef :
  controller ∈ appConfig_controllers this →
  getControllerOwnMeta controller = Some meta →
  ControllerMetadata.prefix meta = Some prefix →
  prefix ≠ "" →
  routeDef ∈ ControllerMetadata.routes meta →
  prefix +:+ RouteDefinition.path routeDef ∉ dom proto →
  is_Some (operationAt
             (OpenApiSpecRoot.paths (OAS_ROOT getControllerOwnMeta proto this))
             (prefix +:+ RouteDefinition.path routeDef)
             (RouteDefinition.requestMethod routeDef)).
Proof.
  intros Hin Hmeta Hprefix Hne Hroute Hown.
  rewrite OAS_ROOT_operationAt, decide_False by exact Hown.
  apply (lastWrite_is_Some _ (meta, prefix, routeDef)).
  apply elem_of_processedRoutes. exists controller.
  split; [exact Hin|]. split; [|exact Hroute].
  by apply truthyPrefix_Some.
Qed.

(** X4. No path of the printed document is left without a method: the
    path item created for a new path receives its first operation in the
    same iteration. *)
Theorem document_path_items_nonempty this p (item : OasPathItem) :
  OpenApiSpecRoot.paths (OAS_ROOT getControllerOwnMeta proto this) !! p = Some item →
  ∃ m op, item !! m = Some op.
Proof.
  rewrite OAS_ROOT_paths_final. intros Hitem. apply map_choose.
  revert Hitem. apply foldl_processedStep_nonempty.
  intros p' item'. cbn. by rewrite lookup_empty.
Qed.

(** X6. A controller that is listed again further on can be dropped from
    its earlier position without changing any entry of the printed
    document: for every path and method, the printed [paths] hold the
    same operation, or none, either way. *)
Theorem earlier_occurrence_redundant before controller between after
    title desc version p m :
  operationAt
    (OpenApiSpecRoot.paths
       (OAS_ROOT getControllerOwnMeta proto
          (mkBuilder (before ++ controller :: between ++ controller :: after)%list
                     title desc version)))
    p m
  = operationAt
      (OpenApiSpecRoot.paths
         (OAS_ROOT getControllerOwnMeta proto
            (mkBuilder (before ++ between ++ controller :: after)%list
                       title desc version)))
      p m.
Proof.
  rewrite !OAS_ROOT_operationAt. destruct (decide _); [reflexivity|].
  cbn [appConfig_controllers].
  rewrite !processedRoutes_app.
  rewrite (processedRoutes_cons _ controller (between ++ _)).
  rewrite (processedRoutes_cons _ controller after).
  rewrite !processedRoutes_app, (processedRoutes_cons _ controller after).
  rewrite !lastWrite_app.
  destruct (lastWrite (processedRoutes _ after) p m); [reflexivity|].
  destruct (lastWrite (processedRoutes _ [controller]) p m); [reflexivity|].
  destruct (lastWrite (processedRoutes _ between) p m); reflexivity.
Qed.

(** X7. Two neighbouring controllers of which no route of the one has
    both the full path and the method of a route of the other can be
    exchanged without changing any entry of the printed document: for
    every path and method, the printed [paths] hold the same operation,
    or none, either way. *)
Theorem disjoint_controllers_commute before controller1 controller2 after
    title desc version p m :
  Forall
    (λ it1,
       Forall
         (λ it2, ¬ (processedPath it1 = processedPath it2 ∧
                    processedMethod it1 = processedMethod it2))
         (processedRoutes getControllerOwnMeta [controller2]))
    (processedRoutes getControllerOwnMeta [controller1]) →
  operationAt
    (OpenApiSpecRoot.paths
       (OAS_ROOT getControllerOwnMeta proto
          (mkBuilder (before ++ controller1 :: controller2 :: after)%list
                     title desc version)))
    p m
  = operationAt
      (OpenApiSpecRoot.paths
         (OAS_ROOT getControllerOwnMeta proto
            (mkBuilder (before ++ controller2 :: controller1 :: after)%list
                       title desc version)))
      p m.
Proof.
  intros Hdisjoint. rewrite !OAS_ROOT_operationAt.
  destruct (decide _); [reflexivity|]. cbn [appConfig_controllers].
  rewrite !processedRoutes_app.
  rewrite (processedRoutes_cons _ controller1 (controller2 :: _)).
  rewrite (processedRoutes_cons _ controller2 (controller1 :: _)).
  rewrite (processedRoutes_cons _ controller1 after).
  rewrite (processedRoutes_cons _ controller2 after).
  rewrite !lastWrite_app.
  destruct (lastWrite (processedRoutes _ after) p m); [reflexivity|].
  destruct (lastWrite (processedRoutes _ [controller1]) p m) as [op1|] eqn:H1,
           (lastWrite (processedRoutes _ [controller2]) p m) as [op2|] eqn:H2;
    try reflexivity.
  apply lastWrite_Some in H1 as (it1 & Hin1 & Hp1 & Hm1 & _).
  apply lastWrite_Some in H2 as (it2 & Hin2 & Hp2 & Hm2 & _).
  rewrite Forall_forall in Hdisjoint. specialize (Hdisjoint it1 Hin1).
  rewrite Forall_forall in Hdisjoint. destruct (Hdisjoint it2 Hin2).
  split; congruence.
Qed.

(** X8. Whatever setters are called on an instance, in whatever order,
    the document printed afterwards differs from the one printed before
    only in its [info] block, where each field holds the value passed to
    the last call of its setter, or the previous value when that setter
    was not called. *)
Theorem setters_only_change_info (this : OasAutogenBuilder Newable)
    (calls : list SetterCall) :
  OAS_ROOT getControllerOwnMeta proto (foldl callSetter this calls)
  = OpenApiSpecRoot.mk
      (OpenApiSpecRoot.openapi (OAS_ROOT getControllerOwnMeta proto this))
      (OasInfo.mk
         (nullish (configuredTitle calls)
                  (OasInfo.title
                     (OpenApiSpecRoot.info (OAS_ROOT getControllerOwnMeta proto this))))
         (nullish (configuredVersion calls)
                  (OasInfo.version
                     (OpenApiSpecRoot.info (OAS_ROOT getControllerOwnMeta proto this))))
         (nullish (configuredDesc calls)
                  (OasInfo.description
                     (OpenApiSpecRoot.info (OAS_ROOT getControllerOwnMeta proto this)))))
      (OpenApiSpecRoot.paths (OAS_ROOT getControllerOwnMeta proto this))
      (OpenApiSpecRoot.components (OAS_ROOT getControllerOwnMeta proto this)).
Proof. rewrite foldl_callSetter. reflexivity. Qed.

(** The operation built for a route has one response, with an empty
    description, and publishes no parameter under the kind PARAM or one
    of the excluded kinds. *)
Lemma operation_wellformed meta routeDef :
  size (OasOperation.responses (operation meta routeDef)) = 1%nat ∧
  (∀ k response,
     OasOperation.responses (operation meta routeDef) !! k = Some response →
     OasResponse.description response = "") ∧
  Forall
    (λ param, OasParameter.in_ param ∉ InArgsType <$> PARAM :: excludedTypes)
    (OasOperation.parameters (operation meta routeDef)).
Proof.
  split; [apply map_size_singleton|]. split.
  - intros k response Hresponse. unfold operation in Hresponse.
    cbn [OasOperation.responses] in Hresponse.
    apply lookup_singleton_Some in Hresponse as [_ <-]. reflexivity.
  - apply Forall_lookup_2. intros index param Hparam.
    destruct (lookup_lt_is_Some_2 (retainedArgs meta routeDef) index) as [arg Harg].
    { rewrite <- operation_parameters_length. by apply lookup_lt_Some in Hparam. }
    rewrite (operation_parameter _ _ _ _ Harg) in Hparam. inversion_clear Hparam.
    cbn [OasParameter.in_].
    apply list_elem_of_lookup_2, list_elem_of_filter in Harg as [(_ & Hkept) _].
    apply not_excluded_iff in Hkept.
    destruct (decide (RouteArgument.type arg = PARAM)) as [Hparam|Hparam].
    + intros (t & ? & _)%list_elem_of_fmap. discriminate.
    + intros (t & [= <-] & Hin)%list_elem_of_fmap.
      apply elem_of_cons in Hin as [?|?]; done.
Qed.

(** X9. Every operation of the printed document has exactly one
    response, whose description is empty, and no parameter whose [in] is
    the kind PARAM, BODY, CONTEXT, REQUEST or RESPONSE. *)
Theorem document_operations_wellformed this p m op :
  operationAt (OpenApiSpecRoot.paths (OAS_ROOT getControllerOwnMeta proto this)) p m
    = Some op →
  size (OasOperation.responses op) = 1%nat ∧
  (∀ k response,
     OasOperation.responses op !! k = Some response →
     OasResponse.description response = "") ∧
  Forall
    (λ param, OasParameter.in_ param ∉ InArgsType <$> PARAM :: excludedTypes)
    (OasOperation.parameters op).
Proof.
  intros (it & _ & _ & _ & ->)%OAS_ROOT_operation_provenance.
  apply operation_wellformed.
Qed.
End Document.

(** X14. A route whose full path is a property name of [Object.prototype]
    gets no key in the printed [paths]: [build] stores its operation on
    the inherited object instead, under the request method, where the
    operation of the last such route stays after [build] has returned. *)
Theorem inherited_path_not_listed {Newable : Type}
    (getControllerOwnMeta : Newable → option ControllerMetadata.t)
    (this : OasAutogenBuilder Newable) (w : World) path p m :
  p ∈ dom (prototype w) →
  OpenApiSpecRoot.paths (OAS_ROOT getControllerOwnMeta (prototype w) this) !! p = None ∧
  operationAt (prototype (build getControllerOwnMeta path this w).2) p m
  = match lastWrite (processedRoutes getControllerOwnMeta (appConfig_controllers this)) p m
    with
    | Some op => Some op
    | None => operationAt (prototype w) p m
    end.
Proof.
  intros Hin. split.
  - rewrite OAS_ROOT_paths_final.
    apply (foldl_processedStep_inheritedNotOwn _ _ (inheritedNotOwn_initial _)).
    by rewrite foldl_processedStep_prototype_dom.
  - unfold build. cbn [snd prototype]. rewrite finalState_heap.
    rewrite foldl_processedStep_prototype_operationAt by apply inheritedNotOwn_initial.
    cbn [Object_prototype]. by rewrite decide_True.
Qed.

(** ** The operation of one route *)

Lemma find_bool_decide_filter {A} (P : A → Prop) `{!∀ x, Decision (P x)} (l : list A) :
  List.find (λ x, bool_decide (P x)) l = head (filter P l).
Proof.
  induction l as [|x l IH]; [reflexivity|].
  simpl. rewrite filter_cons.
  destruct (decide (P x)) as [HP|HP].
  - by rewrite bool_decide_eq_true_2.
  - by rewrite bool_decide_eq_false_2.
Qed.

Lemma docDef_filter meta routeDef :
  docDef meta routeDef
  = head (filter
            (λ d, DocDefinition.docFor d = RouteDefinition.methodName routeDef)
            (ControllerMetadata.docs meta)).
Proof. apply find_bool_decide_filter. Qed.

Lemma retainedArgs_filter meta routeDef :
  retainedArgs meta routeDef
  = filter
      (λ arg, RouteArgument.type arg ∉ excludedTypes)
      (filter
         (λ arg, RouteArgument.argFor arg = RouteDefinition.methodName routeDef)
         (ControllerMetadata.args meta)).
Proof.
  rewrite list_filter_filter. unfold retainedArgs.
  apply list_filter_iff. intros arg. rewrite <- not_excluded_iff. tauto.
Qed.

(** X10. The description of a route's operation is that of the first
    documentation entry, in the order of [docs], whose [docFor] is the
    route's [methodName]; later entries for the same route are ignored. *)
Theorem description_first_doc meta routeDef before d after :
  ControllerMetadata.docs meta = (before ++ d :: after)%list →
  DocDefinition.docFor d = RouteDefinition.methodName routeDef →
  Forall (λ d', DocDefinition.docFor d' ≠ RouteDefinition.methodName routeDef) before →
  OasOperation.description (operation meta routeDef)
  = DocModel.description (DocDefinition.model d).
Proof.
  intros Hdocs Hd Hbefore. unfold operation. cbn [OasOperation.description].
  rewrite docDef_filter, Hdocs, filter_app, filter_cons_True by exact Hd.
  rewrite filter_none by exact Hbefore. reflexivity.
Qed.

(** X11. When no documentation entry has the route's [methodName] as
    [docFor], in particular when [docs] is empty or only documents other
    or unknown routes, the description of the operation is the
    [methodName] itself. *)
Theorem description_fallback meta routeDef :
  Forall
    (λ d, DocDefinition.docFor d ≠ RouteDefinition.methodName routeDef)
    (ControllerMetadata.docs meta) →
  OasOperation.description (operation meta routeDef)
  = RouteDefinition.methodName routeDef.
Proof.
  intros Hdocs. unfold operation. cbn [OasOperation.description].
  rewrite docDef_filter, filter_none by exact Hdocs. reflexivity.
Qed.

(** X12. The operation of a route is assembled from the metadata that is
    registered under the route's own [methodName] only: two controller
    metadata records that agree on the documentation entries, the default
    response code, the arguments and the argument types of that name give
    the same operation, whatever else they hold (prefix, routes and
    metadata of other or unknown routes). *)
Theorem operation_depends_on_own_metadata meta1 meta2 routeDef :
  filter (λ d, DocDefinition.docFor d = RouteDefinition.methodName routeDef)
         (ControllerMetadata.docs meta1)
  = filter (λ d, DocDefinition.docFor d = RouteDefinition.methodName routeDef)
           (ControllerMetadata.docs meta2) →
  ControllerMetadata.defaultResponseCodes meta1 !! RouteDefinition.methodName routeDef
  = ControllerMetadata.defaultResponseCodes meta2 !! RouteDefinition.methodName routeDef →
  filter (λ arg, RouteArgument.argFor arg = RouteDefinition.methodName routeDef)
         (ControllerMetadata.args meta1)
  = filter (λ arg, RouteArgument.argFor arg = RouteDefinition.methodName routeDef)
           (ControllerMetadata.args meta2) →
  ControllerMetadata.argTypes meta1 !! RouteDefinition.methodName routeDef
  = ControllerMetadata.argTypes meta2 !! RouteDefinition.methodName routeDef →
  operation meta1 routeDef = operation meta2 routeDef.
Proof.
  intros Hdocs Hcodes Hargs Htypes.
  unfold operation, code, filteredArgs, filteredArgTypes.
  by rewrite !docDef_filter, !retainedArgs_filter, Hdocs, Hcodes, Hargs, Htypes.
Qed.

(** X13. The [parameters] of a route's operation are empty exactly when
    every argument registered for the route is of kind BODY, CONTEXT,
    REQUEST or RESPONSE (in particular when none is registered). *)
Theorem parameters_empty_iff meta routeDef :
  OasOperation.parameters (operation meta routeDef) = [] ↔
  ∀ arg,
    arg ∈ ControllerMetadata.args meta →
    RouteArgument.argFor arg = RouteDefinition.methodName routeDef →
    RouteArgument.type arg ∈ excludedTypes.
Proof.
  split.
  - intros Hempty arg Hin Hfor.
    destruct (decide (RouteArgument.type arg ∈ excludedTypes)) as [|Hkept]; [done|].
    assert (arg ∈ retainedArgs meta routeDef) as Hretained.
    { apply list_elem_of_filter. split; [|exact Hin].
      split; [exact Hfor | by apply not_excluded_iff]. }
    rewrite (nil_length_inv (retainedArgs meta routeDef)) in Hretained.
    + by apply not_elem_of_nil in Hretained.
    + by rewrite <- operation_parameters_length, Hempty.
  - intros Hall. apply nil_length_inv. rewrite operation_parameters_length.
    destruct (retainedArgs meta routeDef) as [|arg retained] eqn:Hretained;
      [reflexivity|].
    assert (arg ∈ retainedArgs meta routeDef) as Hin by (rewrite Hretained; left).
    apply list_elem_of_filter in Hin as [(Hfor & Hkept) Hin].
    apply not_excluded_iff in Hkept. destruct Hkept. by apply Hall.
Qed.

(** ** Instances on the sample applications *)

Lemma document_operation_from_route_witness :
  ∃ controller meta prefix routeDef,
    controller ∈ appConfig_controllers (new [None; Some usersController]) ∧
    sampleMeta controller = Some meta ∧
    ControllerMetadata.prefix meta = Some prefix ∧
    prefix ≠ "" ∧
    routeDef ∈ ControllerMetadata.routes meta ∧
    "/users/" = prefix +:+ RouteDefinition.path routeDef ∧
    POST = RouteDefinition.requestMethod routeDef ∧
    operation usersController (RouteDefinition.mk "createUser" "/" POST)
    = operation meta routeDef.
Proof.
  apply (document_operation_from_route sampleMeta initialObjectPrototype
           (new [None; Some usersController]) "/users/" POST
           (operation usersController (RouteDefinition.mk "createUser" "/" POST))).
  vm_compute. reflexivity.
Defined.

Lemma document_covers_routes_witness :
  is_Some
    (operationAt
       (OpenApiSpecRoot.paths
          (OAS_ROOT sampleMeta initialObjectPrototype
             (new [Some (pingController "pong"); Some usersController])))
       "/users/:id" PUT).
Proof.
  apply (document_covers_routes sampleMeta initialObjectPrototype
           (new [Some (pingController "pong"); Some usersController])
           (Some usersController) usersController "/users"
           (RouteDefinition.mk "replaceUser" "/:id" PUT)).
  - right. left.
  - reflexivity.
  - reflexivity.
  - discriminate.
  - right. right. left.
  - apply not_elem_of_dom. reflexivity.
Defined.

Lemma document_path_items_nonempty_witness :
  ∃ m op,
    ({[ GET := operation usersController (RouteDefinition.mk "getUser" "/:id" GET);
        PUT := operation usersController (RouteDefinition.mk "replaceUser" "/:id" PUT) ]}
       : OasPathItem) !! m = Some op.
Proof.
  apply (document_path_items_nonempty sampleMeta initialObjectPrototype
           (new [Some usersController]) "/users/:id").
  vm_compute. reflexivity.
Defined.

Lemma disjoint_controllers_commute_witness :
  operationAt
    (OpenApiSpecRoot.paths
       (OAS_ROOT sampleMeta initialObjectPrototype
          (new [Some usersController; Some (pingController "pong")])))
    "/ping" GET
  = operationAt
      (OpenApiSpecRoot.paths
         (OAS_ROOT sampleMeta initialObjectPrototype
            (new [Some (pingController "pong"); Some usersController])))
      "/ping" GET.
Proof.
  apply (disjoint_controllers_commute sampleMeta initialObjectPrototype
           [] (Some usersController) (Some (pingController "pong")) []
           DEFAULT_TITLE DEFAULT_DESC APP_VERSION "/ping" GET).
  repeat constructor; intros [Hpath _]; vm_compute in Hpath; discriminate Hpath.
Defined.

Lemma document_operations_wellformed_witness :
  size (OasOperation.responses
          (operation usersController (RouteDefinition.mk "getUser" "/:id" GET))) = 1%nat ∧
  (∀ k response,
     OasOperation.responses
       (operation usersController (RouteDefinition.mk "getUser" "/:id" GET)) !! k
       = Some response →
     OasResponse.description response = "") ∧
  Forall
    (λ param, OasParameter.in_ param ∉ InArgsType <$> PARAM :: excludedTypes)
    (OasOperation.parameters
       (operation usersController (RouteDefinition.mk "getUser" "/:id" GET))).
Proof.
  apply (document_operations_wellformed sampleMeta initialObjectPrototype
           (new [Some usersController]) "/users/:id" GET).
  vm_compute. reflexivity.
Defined.

Lemma inherited_path_not_listed_witness :
  OpenApiSpecRoot.paths
    (OAS_ROOT sampleMeta initialObjectPrototype (new [Some constructorController]))
    !! "constructor" = None ∧
  operationAt
    (prototype
       (build sampleMeta "openapi.json" (new [Some constructorController])
          (mkWorld [] initialObjectPrototype)).2)
    "constructor" GET
  = match
      lastWrite (processedRoutes sampleMeta [Some constructorController]) "constructor" GET
    with
    | Some op => Some op
    | None => operationAt initialObjectPrototype "constructor" GET
    end.
Proof.
  apply (inherited_path_not_listed sampleMeta (new [Some constructorController])
           (mkWorld [] initialObjectPrototype) "openapi.json" "constructor" GET).
  apply elem_of_dom. eexists. reflexivity.
Defined.

Lemma description_first_doc_witness :
  OasOperation.description
    (operation twiceDocumentedController (RouteDefinition.mk "check" "" GET))
  = "Liveness probe".
Proof.
  apply (description_first_doc twiceDocumentedController
           (RouteDefinition.mk "check" "" GET)
           [DocDefinition.mk "removedRoute" (DocModel.mk "No such route")]
           (DocDefinition.mk "check" (DocModel.mk "Liveness probe"))
           [DocDefinition.mk "check" (DocModel.mk "Shadowed description")]).
  - reflexivity.
  - reflexivity.
  - repeat constructor. discriminate.
Defined.

Lemma description_fallback_witness :
  OasOperation.description
    (operation twiceDocumentedController (RouteDefinition.mk "reset" "" DELETE))
  = "reset".
Proof.
  apply (description_fallback twiceDocumentedController
           (RouteDefinition.mk "reset" "" DELETE)).
  repeat constructor; discriminate.
Defined.

Lemma operation_depends_on_own_metadata_witness :
  operation usersController (RouteDefinition.mk "getUser" "/:id" GET)
  = operation usersControllerExtended (RouteDefinition.mk "getUser" "/:id" GET).
Proof.
  apply (operation_depends_on_own_metadata usersController usersControllerExtended
           (RouteDefinition.mk "getUser" "/:id" GET));
    vm_compute; reflexivity.
Defined.

(** The sample with an inherited name, evaluated: nothing is printed
    under ["constructor"], and the operation sits on the inherited
    object after [build]. *)
Example constructor_route_evaluated :
  OpenApiSpecRoot.paths
    (OAS_ROOT sampleMeta initialObjectPrototype (new [Some constructorController])) = ∅ ∧
  operationAt
    (prototype
       (build sampleMeta "openapi.json" (new [Some constructorController])
          (mkWorld [] initialObjectPrototype)).2)
    "constructor" GET
  = Some (operation constructorController (RouteDefinition.mk "make" "" GET)).
Proof. split; vm_compute; reflexivity. Qed.
